(** * Guard generator (src/core.ts): a shallow embedding and its properties

    The generator reads a class declaration out of a parsed TypeScript unit
    and writes the text of an interface [<Name>Like] and of a wrapper class
    [<Name>Guard] whose methods delegate to a [source] object, through a
    command queue when the method returns an Observable or a Promise.

    Layout: the embedding of the code comes first (texts, the regular
    expressions of the classifier, the syntax nodes the code reads, the
    functions of core.ts in their order), then the lemmas and theorems. *)

From Stdlib Require Import NArith List String Ascii Bool Lia.
Import ListNotations.

Set Implicit Arguments.

(* ================================================================== *)
(** * Part I: the embedding                                             *)
(* ================================================================== *)

(** ** Texts

    A JavaScript string is a sequence of UTF-16 code units; a code unit is
    a number.  [str] reads an ASCII literal as such a sequence. *)

Definition char : Type := N.
Definition text : Type := list char.

Definition str (s : string) : text :=
  List.map N_of_ascii (list_ascii_of_string s).

Arguments str : simpl never.

Definition nl : text := [10%N].
Definition tab : text := [9%N].
Definition dquote : text := [34%N].

(** [a === b] on strings. *)
Fixpoint text_eqb (a b : text) : bool :=
  match a, b with
  | [], [] => true
  | x :: a', y :: b' => N.eqb x y && text_eqb a' b'
  | _, _ => false
  end.

(** [Array.prototype.join] on an array of strings. *)
Fixpoint join (sep : text) (l : list text) : text :=
  match l with
  | [] => []
  | x :: rest =>
      match rest with
      | [] => x
      | _ :: _ => x ++ sep ++ join sep rest
      end
  end.

(** [Array.prototype.map(f).filter(v => v)] where [f] returns an object or
    null: the objects are kept, in order. *)
Fixpoint mapFilter {A B : Type} (f : A -> option B) (l : list A) : list B :=
  match l with
  | [] => []
  | x :: rest =>
      match f x with
      | Some y => y :: mapFilter f rest
      | None => mapFilter f rest
      end
  end.

(** ** Regular expressions

    The fragment of the JavaScript pattern language that the two literals
    of [getQueueMethodForReturnType] use: character sets, sequence and the
    star; [Void] and [Alt] are needed for the derivatives only.  Both
    literals are of the form [/^ body $/] without flags, so [test] holds
    exactly when [body] matches the whole string. *)

Inductive RegExp : Type :=
| Void : RegExp
| Eps : RegExp
| Class : (char -> bool) -> RegExp
| Cat : RegExp -> RegExp -> RegExp
| Alt : RegExp -> RegExp -> RegExp
| Star : RegExp -> RegExp.

Fixpoint nullable (r : RegExp) : bool :=
  match r with
  | Void => false
  | Eps => true
  | Class _ => false
  | Cat r1 r2 => nullable r1 && nullable r2
  | Alt r1 r2 => nullable r1 || nullable r2
  | Star _ => true
  end.

Fixpoint deriv (c : char) (r : RegExp) : RegExp :=
  match r with
  | Void => Void
  | Eps => Void
  | Class p => if p c then Eps else Void
  | Cat r1 r2 =>
      if nullable r1
      then Alt (Cat (deriv c r1) r2) (deriv c r2)
      else Cat (deriv c r1) r2
  | Alt r1 r2 => Alt (deriv c r1) (deriv c r2)
  | Star r1 => Cat (deriv c r1) (Star r1)
  end.

(** [/^ r $/.test(s)] *)
Fixpoint test (r : RegExp) (s : text) : bool :=
  match s with
  | [] => nullable r
  | c :: s' => test (deriv c r) s'
  end.

(** The language of a pattern, as the ECMAScript semantics gives it for
    this fragment (no captures are read, so only acceptance matters). *)
Inductive Matches : RegExp -> text -> Prop :=
| MEps : Matches Eps []
| MClass : forall (p : char -> bool) c, p c = true -> Matches (Class p) [c]
| MCat : forall r1 r2 s1 s2,
    Matches r1 s1 -> Matches r2 s2 -> Matches (Cat r1 r2) (s1 ++ s2)
| MAltL : forall r1 r2 s, Matches r1 s -> Matches (Alt r1 r2) s
| MAltR : forall r1 r2 s, Matches r2 s -> Matches (Alt r1 r2) s
| MStarNil : forall r, Matches (Star r) []
| MStarCons : forall r s1 s2,
    Matches r s1 -> Matches (Star r) s2 -> Matches (Star r) (s1 ++ s2).

(** [.] without the [s] flag: any code unit but a line terminator
    (LF, CR, U+2028, U+2029). *)
Definition isLineTerminator (c : char) : bool :=
  N.eqb c 10 || N.eqb c 13 || N.eqb c 8232 || N.eqb c 8233.

Definition dot : RegExp := Class (fun c => negb (isLineTerminator c)).

(** [[^\[|\]]]: any code unit but '[' (91), '|' (124) and ']' (93). *)
Definition isBracketOrBar (c : char) : bool :=
  N.eqb c 91 || N.eqb c 124 || N.eqb c 93.

Definition notBracketOrBar : RegExp := Class (fun c => negb (isBracketOrBar c)).

(** A run of literal characters. *)
Fixpoint lit (w : text) : RegExp :=
  match w with
  | [] => Eps
  | c :: w' => Cat (Class (N.eqb c)) (lit w')
  end.

(** [r+] *)
Definition plus (r : RegExp) : RegExp := Cat r (Star r).

(** [/^.*<keyword><.+>[^\[|\]]*$/] *)
Definition genericPattern (keyword : text) : RegExp :=
  Cat (Star dot)
    (Cat (lit (keyword ++ str "<"))
       (Cat (plus dot)
          (Cat (lit (str ">"))
             (Star notBracketOrBar)))).

(** [/^.*Observable<.+>[^\[|\]]*$/] *)
Definition observablePattern : RegExp := genericPattern (str "Observable").

(** [/^.*Promise<.+>[^\[|\]]*$/] *)
Definition promisePattern : RegExp := genericPattern (str "Promise").

(** ** The return-type classifier (core.ts, getQueueMethodForReturnType) *)

Definition getQueueMethodForReturnType (returnType : text) : option text :=
  if test observablePattern returnType then Some (str "observe")
  else if test promisePattern returnType then Some (str "add")
  else None.

(** The three dispatch strategies of the specification are the three
    results of the classifier. *)
Definition Stream : option text := Some (str "observe").
Definition Deferred : option text := Some (str "add").
Definition Direct : option text := None.

(** ** Syntax nodes

    The nodes of the TypeScript syntax tree, with the fields core.ts reads.
    A node is an object with a [kind]; the code tests the kind and then
    casts, so each record keeps its kind next to the fields of the cast.
    [getText(sourceFile)] and [getFullText(sourceFile)] return the span of
    the source text the node covers (without and with its leading trivia);
    the parser fixes these spans, so a node carries the two texts. *)

Inductive SyntaxKind : Type :=
| ClassDeclaration
| Identifier
| MethodDeclaration
| ParameterKind            (* SyntaxKind.Parameter *)
| OtherKind (tag : N).     (* every other kind, by its number *)

Definition kind_eqb (a b : SyntaxKind) : bool :=
  match a, b with
  | ClassDeclaration, ClassDeclaration => true
  | Identifier, Identifier => true
  | MethodDeclaration, MethodDeclaration => true
  | ParameterKind, ParameterKind => true
  | OtherKind m, OtherKind n => N.eqb m n
  | _, _ => false
  end.

(** The name of a declaration: an identifier, or another name node (a
    computed or literal member name, a binding pattern). *)
Record NameNode : Type := {
  name_kind : SyntaxKind;
  escapedText : text;
  name_text : text           (* getText(sourceFile) *)
}.

Record TypeNode : Type := {
  type_fullText : text       (* getFullText(sourceFile) *)
}.

(** ts.ParameterDeclaration *)
Record ParameterDeclaration : Type := {
  p_kind : SyntaxKind;
  p_name : option NameNode;
  p_type : option TypeNode
}.

(** ts.ClassElement, read as a ts.MethodDeclaration after the kind test. *)
Record ClassElement : Type := {
  m_kind : SyntaxKind;
  m_name : option NameNode;
  m_parameters : list ParameterDeclaration;
  m_type : option TypeNode
}.

(** ts.Node, read as a ts.ClassDeclaration after the kind test. *)
Record Node : Type := {
  n_kind : SyntaxKind;
  n_name : option NameNode;
  n_members : list ClassElement
}.

(** ts.SourceFile: its name, its text, and the nodes [forEachChild]
    visits (the top-level statements, then the end-of-file token). *)
Record SourceFile : Type := {
  sf_fileName : text;
  sf_text : text;
  sf_children : list Node
}.

Definition getText (sourceFile : SourceFile) (n : NameNode) : text :=
  name_text n.

Definition getFullText (sourceFile : SourceFile) (t : TypeNode) : text :=
  type_fullText t.

(** ** The records of core.ts *)

Record GenerateOptions : Type := {
  inputFileText : text;
  inputFileTargetClass : text;
  inputFileName : option text;     (* inputFileName?: string *)
  outputFileName : option text     (* outputFileName?: string *)
}.

Record MethodArgumentMetadata : Type := {
  arg_name : text;
  arg_type : text
}.

Record MethodDeclarationMetadata : Type := {
  md_name : text;
  md_declarationText : text;
  md_returnType : text;
  md_args : list MethodArgumentMetadata
}.

(** ** Effects: exceptions and the console

    [generateAst] writes one record to the console and may throw.  A
    computation takes the console and returns its result, or the exception
    it threw, with the console it leaves; what was logged before a throw
    stays logged. *)

Inductive Exception : Type :=
| Error (message : text)     (* throw new Error(message) *)
| TypeError.                 (* reading a property of undefined *)

Record LogRecord : Type := {
  log_label : text;
  log_inputFileName : text;
  log_inputFileSize : N;
  log_inputFileTargetClass : text;
  log_outputFileName : text
}.

Definition Console : Type := list LogRecord.

Definition M (A : Type) : Type := Console -> (Exception + A) * Console.

Definition ret {A : Type} (a : A) : M A := fun c => (inr a, c).

Definition throw {A : Type} (e : Exception) : M A := fun c => (inl e, c).

Definition bind {A B : Type} (m : M A) (k : A -> M B) : M B :=
  fun c =>
    match m c with
    | (inl e, c') => (inl e, c')
    | (inr a, c') => k a c'
    end.

Definition consoleLog (r : LogRecord) : M unit :=
  fun c => (inr tt, c ++ [r]).

Declare Scope js_scope.
Delimit Scope js_scope with js.
Notation "x <- m ;; k" := (bind m (fun x => k))
  (at level 61, m at next level, right associativity) : js_scope.
Notation "m ;; k" := (bind m (fun _ => k))
  (at level 61, right associativity) : js_scope.

(** What an invocation returns or throws, and the console it leaves. *)
Definition outcome {A : Type} (m : M A) (c : Console) : Exception + A := fst (m c).
Definition consoleAfter {A : Type} (m : M A) (c : Console) : Console := snd (m c).

(** ** The functions of core.ts *)

Definition assert (condition : bool) (errorMessage : text) : M unit :=
  if negb condition then throw (Error (str "[GuardGenerator] " ++ errorMessage))
  else ret tt.

Definition isClassDeclarationWithIdentifier (node : Node) (targetClassName : text) : bool :=
  if negb (kind_eqb (n_kind node) ClassDeclaration) then false
  else
    match n_name node with
    | None => false
    | Some className =>
        if negb (kind_eqb (name_kind className) Identifier) then false
        else text_eqb (escapedText className) targetClassName
    end.

(** The callback of [forEachChild] returns nothing, so every child is
    visited; [result] is the variable the callback assigns. *)
Definition findClassNodeByName (source : SourceFile) (targetClassName : text) : option Node :=
  fold_left
    (fun (result : option Node) (node : Node) =>
       match result with
       | Some _ => result
       | None =>
           if negb (isClassDeclarationWithIdentifier node targetClassName) then result
           else Some node
       end)
    (sf_children source) None.

Definition generateClassInterfaceMethods (methods : list MethodDeclarationMetadata) (indent : text) : text :=
  join nl (List.map (fun m => indent ++ md_declarationText m ++ str ";") methods).

(** A string is truthy when it is not empty. *)
Definition truthy (v : option text) : bool :=
  match v with
  | Some (_ :: _) => true
  | _ => false
  end.

(** The constant [returnStatement] of [generateClassGuardMethod]. *)
Definition returnStatement (method : MethodDeclarationMetadata)
    (sourceRefName : text) : text :=
  let queueMethod := getQueueMethodForReturnType (md_returnType method) in
  let methodArgs := join (str ", ") (List.map arg_name (md_args method)) in
  let sourceCall :=
    str "this." ++ sourceRefName ++ str "." ++ md_name method ++ str "(" ++ methodArgs ++ str ")" in
  match queueMethod with
  | Some q =>
      if truthy queueMethod
      then str "this.queue." ++ q ++ str "(() => " ++ sourceCall ++ str ")"
      else sourceCall
  | None => sourceCall
  end.

Definition generateClassGuardMethod (method : MethodDeclarationMetadata)
    (sourceRefName indent : text) : text :=
  indent ++ md_declarationText method ++ str " {" ++ nl ++
  indent ++ tab ++ str "return " ++ returnStatement method sourceRefName ++ str ";" ++ nl ++
  indent ++ str "}".

Definition generateClassGuardMethodList (methods : list MethodDeclarationMetadata)
    (sourceRefName indent : text) : text :=
  join nl (List.map (fun m => generateClassGuardMethod m sourceRefName indent) methods).

Definition parseMethodArgumentDeclarationMetadata (sourceFile : SourceFile)
    (parameter : ParameterDeclaration) : option MethodArgumentMetadata :=
  if negb (kind_eqb (p_kind parameter) ParameterKind) then None
  else
    let name := match p_name parameter with
                | Some n => getText sourceFile n
                | None => []
                end in
    let type := match p_type parameter with
                | Some t => getFullText sourceFile t
                | None => []
                end in
    Some {| arg_name := name; arg_type := type |}.

Definition parseMethodDeclarationMetadata (sourceFile : SourceFile)
    (memberNode : ClassElement) : option MethodDeclarationMetadata :=
  if negb (kind_eqb (m_kind memberNode) MethodDeclaration) then None
  else
    let methodNode := memberNode in
    let name := match m_name methodNode with
                | Some n => getText sourceFile n
                | None => []
                end in
    let args :=
      mapFilter (parseMethodArgumentDeclarationMetadata sourceFile) (m_parameters methodNode) in
    let returnType := match m_type methodNode with
                      | Some t => getFullText sourceFile t
                      | None => str "any"
                      end in
    let typedArgumentList :=
      join (str ", ") (List.map (fun a => arg_name a ++ str ": " ++ arg_type a) args) in
    let declarationText :=
      name ++ str "(" ++ typedArgumentList ++ str "): " ++ returnType in
    Some {| md_name := name;
            md_declarationText := declarationText;
            md_returnType := returnType;
            md_args := args |}.

Definition parseMethodDeclarationMetadataList (sourceFile : SourceFile)
    (sourceClass : Node) : list MethodDeclarationMetadata :=
  mapFilter (parseMethodDeclarationMetadata sourceFile) (n_members sourceClass).

(** The constant [sourceRefName] of [generateOutputFromClassSource]. *)
Definition sourceRefName : text := str "source".

(** The template literal [sourceFileText] of [generateOutputFromClassSource],
    for the class name [className] read from [sourceClass.name]. *)
Definition sourceFileText (sourceFile : SourceFile) (className : text)
    (sourceClass : Node) : text :=
  let classLikeInterfaceName := className ++ str "Like" in
  let classGuardName := className ++ str "Guard" in
  let methodDeclarations := parseMethodDeclarationMetadataList sourceFile sourceClass in
  str "import { Observable } from 'rxjs';" ++ nl ++
  str "import { CommandQueue } from '@obsidize/command-queue';" ++ nl ++
  nl ++
  str "export interface " ++ classLikeInterfaceName ++ str " {" ++ nl ++
  generateClassInterfaceMethods methodDeclarations tab ++ nl ++
  str "}" ++ nl ++
  nl ++
  str "export class " ++ classGuardName ++ str " implements " ++ classLikeInterfaceName ++ str " {" ++ nl ++
  tab ++ nl ++
  tab ++ str "public readonly queue: CommandQueue = new CommandQueue();" ++ nl ++
  tab ++ nl ++
  tab ++ str "constructor(" ++ nl ++
  tab ++ tab ++ str "public readonly " ++ sourceRefName ++ str ": " ++ classLikeInterfaceName ++ nl ++
  tab ++ str ") {" ++ nl ++
  tab ++ str "}" ++ nl ++
  nl ++
  generateClassGuardMethodList methodDeclarations sourceRefName tab ++ nl ++
  str "}" ++ nl.

Section Pipeline.

(** The two capabilities of the TypeScript library the pipeline calls:
    [ts.createSourceFile(fileName, sourceText, ScriptTarget.Latest)] and
    [ts.createPrinter().printFile(sourceFile)]. *)
Variable createSourceFile : text -> text -> SourceFile.
Variable printFile : SourceFile -> text.

Definition generateOutputFromClassSource (sourceFile : SourceFile)
    (outFileName : text) (sourceClass : Node) : M SourceFile :=
  match n_name sourceClass with
  | None => throw TypeError          (* sourceClass.name!.escapedText *)
  | Some id =>
      let className := escapedText id in
      ret (createSourceFile outFileName (sourceFileText sourceFile className sourceClass))
  end.

(** [Object.assign({ inputFileName: '', outputFileName: '' }, options)] *)
Definition withDefault (v : option text) : text :=
  match v with
  | Some s => s
  | None => []
  end.

(** The constant [inputRootNode] of [generateAst]: the parsed input. *)
Definition inputRootNode (options : GenerateOptions) : SourceFile :=
  createSourceFile (withDefault (inputFileName options)) (inputFileText options).

Definition generateAst (options : GenerateOptions) : M SourceFile :=
  let inputFileName' := withDefault (inputFileName options) in
  let inputFileText' := inputFileText options in
  let inputFileTargetClass' := inputFileTargetClass options in
  let outputFileName' := withDefault (outputFileName options) in
  (consoleLog {| log_label := str "generate() with options";
                 log_inputFileName := inputFileName';
                 log_inputFileSize := N.of_nat (List.length inputFileText');
                 log_inputFileTargetClass := inputFileTargetClass';
                 log_outputFileName := outputFileName' |} ;;
   let inputRootNode := inputRootNode options in
   let classNode := findClassNodeByName inputRootNode inputFileTargetClass' in
   assert (match classNode with Some _ => true | None => false end)
     (str "Definition for input " ++ dquote ++ inputFileName' ++ dquote ++
      str " does not contain a cordova plugin class declaration") ;;
   match classNode with
   | Some sourceClass =>
       generateOutputFromClassSource inputRootNode outputFileName' sourceClass
   | None => throw TypeError         (* classNode as ts.ClassDeclaration *)
   end)%js.

Definition generate (options : GenerateOptions) : M text :=
  (outputRootNode <- generateAst options ;;
   ret (printFile outputRootNode))%js.

End Pipeline.

(** ** Vocabulary of the properties *)

(** [s] has the form [a ++ keyword ++ "<" ++ b ++ ">" ++ c] where [a] and
    [b] hold no line terminator, [b] is not empty, and [c], the whole rest
    of the text after that [>], holds no '[', '|' or ']'. *)
Definition splitsAsGeneric (keyword s : text) : Prop :=
  exists a b c : text,
    s = a ++ keyword ++ str "<" ++ b ++ str ">" ++ c /\
    Forall (fun x => isLineTerminator x = false) a /\
    b <> [] /\
    Forall (fun x => isLineTerminator x = false) b /\
    Forall (fun x => isBracketOrBar x = false) c.

(** The wording of the specification, read literally: [s] contains a
    generic [keyword<...>] and the character right after its [>], if
    there is one, is not an opening array bracket. *)
Definition containsGenericNotArraySuffixed (keyword s : text) : Prop :=
  exists a b c : text,
    s = a ++ keyword ++ str "<" ++ b ++ str ">" ++ c /\
    b <> [] /\
    hd_error c <> Some 91%N.

(** The unit declares, at its top level, a class whose name is the
    identifier [target]. *)
Definition declaresClass (source : SourceFile) (target : text) : Prop :=
  exists node id,
    In node (sf_children source) /\
    n_kind node = ClassDeclaration /\
    n_name node = Some id /\
    name_kind id = Identifier /\
    escapedText id = target.

(** The message of the error thrown when the target class is missing. *)
Definition notFoundMessage (inputName : text) : text :=
  str "[GuardGenerator] Definition for input " ++ dquote ++ inputName ++ dquote ++
  str " does not contain a cordova plugin class declaration".

(** [w] occurs in [s] as a contiguous run. *)
Fixpoint startsWith (s w : text) : bool :=
  match w, s with
  | [], _ => true
  | x :: w', y :: s' => N.eqb x y && startsWith s' w'
  | _ :: _, [] => false
  end.

Fixpoint occursIn (w s : text) : bool :=
  startsWith s w ||
  match s with
  | [] => false
  | _ :: s' => occursIn w s'
  end.

(** The declaration head of a method of the source class, from its parts:
    the name, the parameters with their types, the return type. *)
Definition nameOf (n : option NameNode) : text :=
  match n with
  | Some id => name_text id
  | None => []
  end.

Definition typeOf (t : option TypeNode) : text :=
  match t with
  | Some ty => type_fullText ty
  | None => []
  end.

Definition returnTypeOf (member : ClassElement) : text :=
  match m_type member with
  | Some ty => type_fullText ty
  | None => str "any"
  end.

Definition isMethod (member : ClassElement) : bool :=
  kind_eqb (m_kind member) MethodDeclaration.

Definition isParameter (parameter : ParameterDeclaration) : bool :=
  kind_eqb (p_kind parameter) ParameterKind.

(** The method declarations of a class, in declaration order. *)
Definition methodsOf (sourceClass : Node) : list ClassElement :=
  filter isMethod (n_members sourceClass).

(** The parameters of a method that are parameter nodes, in declared order. *)
Definition parametersOf (member : ClassElement) : list ParameterDeclaration :=
  filter isParameter (m_parameters member).

Definition argumentOf (parameter : ParameterDeclaration) : MethodArgumentMetadata :=
  {| arg_name := nameOf (p_name parameter); arg_type := typeOf (p_type parameter) |}.

Definition declarationHead (member : ClassElement) : text :=
  nameOf (m_name member) ++ str "(" ++
  join (str ", ")
    (List.map (fun p => nameOf (p_name p) ++ str ": " ++ typeOf (p_type p))
       (parametersOf member)) ++
  str "): " ++ returnTypeOf member.

Definition metadataOf (member : ClassElement) : MethodDeclarationMetadata :=
  {| md_name := nameOf (m_name member);
     md_declarationText := declarationHead member;
     md_returnType := returnTypeOf member;
     md_args := List.map argumentOf (parametersOf member) |}.

(** The three parts of the generated text. *)
Definition importsText : text :=
  str "import { Observable } from 'rxjs';" ++ nl ++
  str "import { CommandQueue } from '@obsidize/command-queue';" ++ nl.

Definition interfaceDeclarationText (interfaceName members : text) : text :=
  str "export interface " ++ interfaceName ++ str " {" ++ nl ++
  members ++ nl ++
  str "}" ++ nl.

Definition queueFieldText : text :=
  tab ++ str "public readonly queue: CommandQueue = new CommandQueue();" ++ nl.

Definition classDeclarationText (className interfaceName methods : text) : text :=
  str "export class " ++ className ++ str " implements " ++ interfaceName ++ str " {" ++ nl ++
  tab ++ nl ++
  queueFieldText ++
  tab ++ nl ++
  tab ++ str "constructor(" ++ nl ++
  tab ++ tab ++ str "public readonly source: " ++ interfaceName ++ nl ++
  tab ++ str ") {" ++ nl ++
  tab ++ str "}" ++ nl ++
  nl ++
  methods ++ nl ++
  str "}" ++ nl.

(** The delegating call [this.source.<name>(<args>)] of a method. *)
Definition delegatingCall (method : MethodDeclarationMetadata) : text :=
  str "this.source." ++ md_name method ++ str "(" ++
  join (str ", ") (List.map arg_name (md_args method)) ++ str ")".

(** A guard method with the given return expression. *)
Definition guardMethodText (indent : text) (method : MethodDeclarationMetadata)
    (returned : text) : text :=
  indent ++ md_declarationText method ++ str " {" ++ nl ++
  indent ++ tab ++ str "return " ++ returned ++ str ";" ++ nl ++
  indent ++ str "}".

(** ** Sample units

    A parse capability that knows one text, used to run the pipeline on
    concrete inputs.  The unit for [sampleText] is the tree the TypeScript
    parser builds for it: the full text of a type starts with the blank
    that precedes it in the source. *)

Definition sampleText : text :=
  str "class Base {} export class Foo extends Base { label = 'x'; bar(x: number): Promise<string> { return null; } baz(): Observable<number> { return null; } qux(): void {} }".

Definition identifier (s : string) : NameNode :=
  {| name_kind := Identifier; escapedText := str s; name_text := str s |}.

Definition typeNode (s : string) : TypeNode :=
  {| type_fullText := str s |}.

Definition sampleBar : ClassElement :=
  {| m_kind := MethodDeclaration;
     m_name := Some (identifier "bar");
     m_parameters :=
       [ {| p_kind := ParameterKind;
            p_name := Some (identifier "x");
            p_type := Some (typeNode " number") |} ];
     m_type := Some (typeNode " Promise<string>") |}.

Definition sampleBaz : ClassElement :=
  {| m_kind := MethodDeclaration;
     m_name := Some (identifier "baz");
     m_parameters := [];
     m_type := Some (typeNode " Observable<number>") |}.

Definition sampleQux : ClassElement :=
  {| m_kind := MethodDeclaration;
     m_name := Some (identifier "qux");
     m_parameters := [];
     m_type := Some (typeNode " void") |}.

Definition sampleLabel : ClassElement :=
  {| m_kind := OtherKind 172;                  (* the property [label] *)
     m_name := Some (identifier "label");
     m_parameters := [];
     m_type := None |}.

Definition sampleBase : Node :=
  {| n_kind := ClassDeclaration; n_name := Some (identifier "Base"); n_members := [] |}.

Definition sampleFoo : Node :=
  {| n_kind := ClassDeclaration;
     n_name := Some (identifier "Foo");
     n_members := [sampleLabel; sampleBar; sampleBaz; sampleQux] |}.

Definition sampleChildren : list Node :=
  [ sampleBase;
    sampleFoo;
    {| n_kind := OtherKind 1;                    (* the end-of-file token *)
       n_name := None;
       n_members := [] |} ].

(** Parses [sampleText]; any other text gives a unit without declarations.
    The file name is recorded and not looked at. *)
Definition sampleCreateSourceFile (fileName sourceText : text) : SourceFile :=
  {| sf_fileName := fileName;
     sf_text := sourceText;
     sf_children := if text_eqb sourceText sampleText then sampleChildren else [] |}.

(** [s] ends with [suffix]. *)
Definition endsWith (s suffix : text) : bool :=
  text_eqb (skipn (List.length s - List.length suffix) s) suffix.

(** A parse capability that picks the language by the extension of the
    file name, as a parser may: a [.json] name is not read as TypeScript
    and gives a unit without declarations. *)
Definition createSourceFileByExtension (fileName sourceText : text) : SourceFile :=
  if endsWith fileName (str ".json")
  then {| sf_fileName := fileName; sf_text := sourceText; sf_children := [] |}
  else sampleCreateSourceFile fileName sourceText.

(** Prints a unit as the text it was made from. *)
Definition samplePrintFile (sourceFile : SourceFile) : text :=
  sf_text sourceFile.

Definition sampleOptions (target : string) : GenerateOptions :=
  {| inputFileText := sampleText;
     inputFileTargetClass := str target;
     inputFileName := None;
     outputFileName := None |}.

(** The text generated for the class [Foo] of [sampleText]. *)
Definition fooGuardText : text :=
  join nl
    [ str "import { Observable } from 'rxjs';";
      str "import { CommandQueue } from '@obsidize/command-queue';";
      [];
      str "export interface FooLike {";
      tab ++ str "bar(x:  number):  Promise<string>;";
      tab ++ str "baz():  Observable<number>;";
      tab ++ str "qux():  void;";
      str "}";
      [];
      str "export class FooGuard implements FooLike {";
      tab;
      tab ++ str "public readonly queue: CommandQueue = new CommandQueue();";
      tab;
      tab ++ str "constructor(";
      tab ++ tab ++ str "public readonly source: FooLike";
      tab ++ str ") {";
      tab ++ str "}";
      [];
      tab ++ str "bar(x:  number):  Promise<string> {";
      tab ++ tab ++ str "return this.queue.add(() => this.source.bar(x));";
      tab ++ str "}";
      tab ++ str "baz():  Observable<number> {";
      tab ++ tab ++ str "return this.queue.observe(() => this.source.baz());";
      tab ++ str "}";
      tab ++ str "qux():  void {";
      tab ++ tab ++ str "return this.source.qux();";
      tab ++ str "}";
      str "}";
      [] ].

(** The text generated for the class [Base] of [sampleText], which has no
    method. *)
Definition baseGuardText : text :=
  join nl
    [ str "import { Observable } from 'rxjs';";
      str "import { CommandQueue } from '@obsidize/command-queue';";
      [];
      str "export interface BaseLike {";
      [];
      str "}";
      [];
      str "export class BaseGuard implements BaseLike {";
      tab;
      tab ++ str "public readonly queue: CommandQueue = new CommandQueue();";
      tab;
      tab ++ str "constructor(";
      tab ++ tab ++ str "public readonly source: BaseLike";
      tab ++ str ") {";
      tab ++ str "}";
      [];
      [];
      str "}";
      [] ].

(* ================================================================== *)
(** * Part II: properties                                               *)
(* ================================================================== *)

(** ** Texts and lists *)

Lemma text_eqb_eq (a b : text) : text_eqb a b = true <-> a = b.
Proof.
  revert b. induction a as [|x a IH]; intros [|y b]; simpl; split;
    try congruence; try reflexivity.
  - intros H. apply andb_true_iff in H. destruct H as [Hx Hab].
    apply N.eqb_eq in Hx. apply IH in Hab. congruence.
  - intros H. injection H as -> ->. rewrite N.eqb_refl. simpl.
    apply IH. reflexivity.
Qed.

Lemma kind_eqb_eq (a b : SyntaxKind) : kind_eqb a b = true <-> a = b.
Proof.
  destruct a, b; simpl; split; try congruence; try reflexivity.
  - intros H. apply N.eqb_eq in H. congruence.
  - intros H. injection H as ->. apply N.eqb_refl.
Qed.

(** ** The matcher decides the language of a pattern *)

Ltac invert H := inversion H; subst; clear H.

Lemma nullable_Matches (r : RegExp) : nullable r = true <-> Matches r [].
Proof.
  induction r as [| |p|r1 IH1 r2 IH2|r1 IH1 r2 IH2|r IH]; simpl.
  - split; [discriminate | intros H; invert H].
  - split; [intros _; constructor | reflexivity].
  - split; [discriminate | intros H; invert H].
  - rewrite andb_true_iff, IH1, IH2. split.
    + intros [H1 H2]. exact (MCat H1 H2).
    + intros H. inversion H as [| |? ? s1 s2 H1 H2| | | |]; subst.
      destruct s1; [|discriminate]. destruct s2; [|discriminate].
      split; assumption.
  - rewrite orb_true_iff, IH1, IH2. split.
    + intros [H|H]; [apply MAltL | apply MAltR]; assumption.
    + intros H. invert H; [left | right]; assumption.
  - split; [intros _; constructor | reflexivity].
Qed.

Lemma Matches_Star_cons_inv (r : RegExp) (c : char) (s : text) :
  Matches (Star r) (c :: s) ->
  exists s1 s2, s = s1 ++ s2 /\ Matches r (c :: s1) /\ Matches (Star r) s2.
Proof.
  intros H. remember (Star r) as r' eqn:Er. remember (c :: s) as w eqn:Ew.
  revert r c s Er Ew.
  induction H as [| | | | | |r0 s1 s2 H1 _ H2 IH2]; intros rr cc ss Er Ew;
    try discriminate.
  injection Er as ->.
  destruct s1 as [|x s1]; simpl in Ew.
  - apply (IH2 rr cc ss); [reflexivity | assumption].
  - injection Ew as -> <-. exists s1, s2. repeat split; assumption.
Qed.

Lemma Matches_Cat_cons_inv (r1 r2 : RegExp) (c : char) (s : text) :
  Matches (Cat r1 r2) (c :: s) ->
  (Matches r1 [] /\ Matches r2 (c :: s)) \/
  (exists s1 s2, s = s1 ++ s2 /\ Matches r1 (c :: s1) /\ Matches r2 s2).
Proof.
  intros H. inversion H as [| |? ? s1 s2 H1 H2 E1 E2| | | |]; subst.
  destruct s1 as [|x s1]; simpl in *.
  - left. subst. split; assumption.
  - right. injection E2 as -> <-. exists s1, s2. repeat split; assumption.
Qed.

Lemma deriv_Matches (c : char) (r : RegExp) (s : text) :
  Matches (deriv c r) s <-> Matches r (c :: s).
Proof.
  revert s. induction r as [| |p|r1 IH1 r2 IH2|r1 IH1 r2 IH2|r IH]; intros s; simpl.
  - split; intros H; invert H.
  - split; intros H; invert H.
  - destruct (p c) eqn:Hp; split; intros H.
    + invert H. constructor. assumption.
    + invert H. constructor.
    + invert H.
    + invert H. congruence.
  - assert (Hcat : Matches (Cat (deriv c r1) r2) s ->
                   Matches (Cat r1 r2) (c :: s)).
    { intros H. inversion H as [| |? ? s1 s2 H1 H2| | | |]; subst.
      apply IH1 in H1. exact (MCat H1 H2). }
    destruct (nullable r1) eqn:Hn; split; intros H.
    + invert H; [apply Hcat; assumption|].
      apply nullable_Matches in Hn.
      change (c :: s) with ([] ++ c :: s). apply MCat; [assumption|].
      apply IH2. assumption.
    + apply Matches_Cat_cons_inv in H.
      destruct H as [[_ H2] | (s1 & s2 & -> & H1 & H2)].
      * apply MAltR. apply IH2. assumption.
      * apply MAltL. apply MCat; [|assumption]. apply IH1. assumption.
    + apply Hcat; assumption.
    + apply Matches_Cat_cons_inv in H.
      destruct H as [[H1 _] | (s1 & s2 & -> & H1 & H2)].
      * apply nullable_Matches in H1. congruence.
      * apply MCat; [|assumption]. apply IH1. assumption.
  - split; intros H; invert H.
    + apply MAltL, IH1. assumption.
    + apply MAltR, IH2. assumption.
    + apply MAltL, IH1. assumption.
    + apply MAltR, IH2. assumption.
  - split; intros H.
    + inversion H as [| |? ? s1 s2 H1 H2| | | |]; subst.
      apply IH in H1. exact (MStarCons H1 H2).
    + apply Matches_Star_cons_inv in H.
      destruct H as (s1 & s2 & -> & H1 & H2).
      apply MCat; [|assumption]. apply IH. assumption.
Qed.

Lemma test_Matches (r : RegExp) (s : text) : test r s = true <-> Matches r s.
Proof.
  revert r. induction s as [|c s IH]; intros r; simpl.
  - apply nullable_Matches.
  - rewrite IH. apply deriv_Matches.
Qed.

(** ** What the two patterns accept *)

Lemma Matches_Cat (r1 r2 : RegExp) (s : text) :
  Matches (Cat r1 r2) s <->
  exists s1 s2, s = s1 ++ s2 /\ Matches r1 s1 /\ Matches r2 s2.
Proof.
  split.
  - intros H. inversion H as [| |? ? s1 s2 H1 H2| | | |]; subst.
    exists s1, s2. repeat split; assumption.
  - intros (s1 & s2 & -> & H1 & H2). exact (MCat H1 H2).
Qed.

Lemma Matches_Class (p : char -> bool) (s : text) :
  Matches (Class p) s <-> exists c, s = [c] /\ p c = true.
Proof.
  split.
  - intros H. invert H. eexists. split; [reflexivity | assumption].
  - intros (c & -> & Hc). constructor. assumption.
Qed.

Lemma Matches_Star_Class (p : char -> bool) (s : text) :
  Matches (Star (Class p)) s <-> Forall (fun c => p c = true) s.
Proof.
  split.
  - intros H. remember (Star (Class p)) as r eqn:Er.
    induction H as [| | | | | |r0 s1 s2 H1 _ H2 IH2]; try discriminate.
    + constructor.
    + injection Er as ->. apply Matches_Class in H1.
      destruct H1 as (c & -> & Hc). simpl. constructor; [assumption|].
      apply IH2. reflexivity.
  - induction 1 as [|c s Hc _ IH].
    + constructor.
    + change (c :: s) with ([c] ++ s). apply MStarCons; [|assumption].
      constructor. assumption.
Qed.

Lemma Matches_lit (w s : text) : Matches (lit w) s <-> s = w.
Proof.
  revert s. induction w as [|c w IH]; intros s; simpl.
  - split; intros H; [invert H; reflexivity | subst; constructor].
  - rewrite Matches_Cat. split.
    + intros (s1 & s2 & -> & H1 & H2). apply Matches_Class in H1.
      destruct H1 as (x & -> & Hx). apply N.eqb_eq in Hx. apply IH in H2.
      subst. reflexivity.
    + intros ->. exists [c], w. repeat split.
      * constructor. apply N.eqb_refl.
      * apply IH. reflexivity.
Qed.

Lemma Forall_negb (p : char -> bool) (s : text) :
  Forall (fun c => negb (p c) = true) s <-> Forall (fun c => p c = false) s.
Proof.
  split; apply Forall_impl; intros c; apply negb_true_iff.
Qed.

Lemma Matches_genericPattern (keyword s : text) :
  Matches (genericPattern keyword) s <-> splitsAsGeneric keyword s.
Proof.
  unfold genericPattern, splitsAsGeneric, plus, dot, notBracketOrBar. split.
  - intros H.
    apply Matches_Cat in H. destruct H as (a & s1 & -> & Ha & H).
    apply Matches_Cat in H. destruct H as (w & s2 & -> & Hw & H).
    apply Matches_Cat in H. destruct H as (b & s3 & -> & Hb & H).
    apply Matches_Cat in H. destruct H as (g & c & -> & Hg & Hc).
    apply Matches_lit in Hw, Hg. subst w g.
    apply Matches_Cat in Hb. destruct Hb as (b1 & b2 & -> & Hb1 & Hb2).
    apply Matches_Class in Hb1. destruct Hb1 as (x & -> & Hx).
    apply Matches_Star_Class, Forall_negb in Ha, Hb2, Hc.
    exists a, (x :: b2), c. repeat split.
    + rewrite <- app_assoc. reflexivity.
    + assumption.
    + discriminate.
    + constructor; [apply negb_true_iff; assumption | assumption].
    + assumption.
  - intros (a & b & c & -> & Ha & Hne & Hb & Hc).
    destruct b as [|x b2]; [congruence|]. invert Hb.
    apply MCat; [apply Matches_Star_Class, Forall_negb; assumption|].
    rewrite (app_assoc keyword). apply MCat; [apply Matches_lit; reflexivity|].
    change ((x :: b2) ++ str ">" ++ c) with (([x] ++ b2) ++ str ">" ++ c).
    apply MCat.
    + apply MCat.
      * constructor. apply negb_true_iff. assumption.
      * apply Matches_Star_Class, Forall_negb. assumption.
    + apply MCat; [apply Matches_lit; reflexivity|].
      apply Matches_Star_Class, Forall_negb. assumption.
Qed.

Lemma test_genericPattern (keyword s : text) :
  test (genericPattern keyword) s = true <-> splitsAsGeneric keyword s.
Proof. rewrite test_Matches. apply Matches_genericPattern. Qed.

Lemma test_genericPattern_false (keyword s : text) :
  test (genericPattern keyword) s = false <-> ~ splitsAsGeneric keyword s.
Proof.
  rewrite <- test_genericPattern. destruct (test _ s); split; congruence.
Qed.

(** ** The classifier *)

Lemma classifier_Stream (returnType : text) :
  getQueueMethodForReturnType returnType = Stream <->
  splitsAsGeneric (str "Observable") returnType.
Proof.
  rewrite <- test_genericPattern. unfold getQueueMethodForReturnType, Stream.
  change observablePattern with (genericPattern (str "Observable")).
  destruct (test (genericPattern (str "Observable")) returnType).
  - split; reflexivity.
  - destruct (test promisePattern returnType); split; discriminate.
Qed.

Lemma classifier_Deferred (returnType : text) :
  getQueueMethodForReturnType returnType = Deferred <->
  ~ splitsAsGeneric (str "Observable") returnType /\
  splitsAsGeneric (str "Promise") returnType.
Proof.
  rewrite <- test_genericPattern_false, <- test_genericPattern.
  unfold getQueueMethodForReturnType, Deferred.
  change observablePattern with (genericPattern (str "Observable")).
  change promisePattern with (genericPattern (str "Promise")).
  destruct (test (genericPattern (str "Observable")) returnType).
  - split; [discriminate | intros [H _]; discriminate].
  - destruct (test (genericPattern (str "Promise")) returnType).
    + split; [intros _; split; reflexivity | reflexivity].
    + split; [discriminate | intros [_ H]; discriminate].
Qed.

Lemma classifier_Direct (returnType : text) :
  getQueueMethodForReturnType returnType = Direct <->
  ~ splitsAsGeneric (str "Observable") returnType /\
  ~ splitsAsGeneric (str "Promise") returnType.
Proof.
  rewrite <- !test_genericPattern_false.
  unfold getQueueMethodForReturnType, Direct.
  change observablePattern with (genericPattern (str "Observable")).
  change promisePattern with (genericPattern (str "Promise")).
  destruct (test (genericPattern (str "Observable")) returnType).
  - split; [discriminate | intros [H _]; discriminate].
  - destruct (test (genericPattern (str "Promise")) returnType).
    + split; [discriminate | intros [_ H]; discriminate].
    + split; [intros _; split; reflexivity | reflexivity].
Qed.

Lemma classifier_total (returnType : text) :
  getQueueMethodForReturnType returnType = Stream \/
  getQueueMethodForReturnType returnType = Deferred \/
  getQueueMethodForReturnType returnType = Direct.
Proof.
  unfold getQueueMethodForReturnType.
  destruct (test observablePattern returnType); [left; reflexivity|].
  destruct (test promisePattern returnType); [right; left | right; right];
    reflexivity.
Qed.

(** C1 (as amended).  The classifier answers Stream exactly when the text
    splits as [a ++ "Observable<" ++ b ++ ">" ++ c] with no line terminator
    in [a] and [b], [b] not empty, and none of '[', '|', ']' anywhere in
    the rest [c]; Deferred exactly when it does not and splits so for
    "Promise<"; Direct otherwise.  "Observable<string>" is Stream,
    "Promise<void>" Deferred, "Observable<number>[]", "void" and "any"
    Direct, and a method without a return-type annotation gets the return
    type "any", hence Direct. *)
Theorem C1_classifier :
  (forall returnType,
      getQueueMethodForReturnType returnType = Stream <->
      splitsAsGeneric (str "Observable") returnType) /\
  (forall returnType,
      getQueueMethodForReturnType returnType = Deferred <->
      ~ splitsAsGeneric (str "Observable") returnType /\
      splitsAsGeneric (str "Promise") returnType) /\
  (forall returnType,
      getQueueMethodForReturnType returnType = Direct <->
      ~ splitsAsGeneric (str "Observable") returnType /\
      ~ splitsAsGeneric (str "Promise") returnType) /\
  getQueueMethodForReturnType (str "Observable<string>") = Stream /\
  getQueueMethodForReturnType (str "Promise<void>") = Deferred /\
  getQueueMethodForReturnType (str "Observable<number>[]") = Direct /\
  getQueueMethodForReturnType (str "void") = Direct /\
  getQueueMethodForReturnType (str "any") = Direct /\
  (forall sourceFile name parameters,
      option_map (fun m => (md_returnType m, getQueueMethodForReturnType (md_returnType m)))
        (parseMethodDeclarationMetadata sourceFile
           {| m_kind := MethodDeclaration; m_name := name;
              m_parameters := parameters; m_type := None |})
      = Some (str "any", Direct)).
Proof.
  split; [exact classifier_Stream|].
  split; [exact classifier_Deferred|].
  split; [exact classifier_Direct|].
  repeat split; vm_compute; reflexivity.
Qed.

(** C1, as the claim words it, fails on a union type: the text
    "Observable<number> | null" contains the generic [Observable<number>],
    the character after its [>] is a blank and not an array bracket, and
    the classifier answers Direct. *)
Lemma C1_union_type_is_Direct :
  containsGenericNotArraySuffixed (str "Observable") (str "Observable<number> | null") /\
  getQueueMethodForReturnType (str "Observable<number> | null") = Direct /\
  getQueueMethodForReturnType (str "Observable<number> | null") <> Stream.
Proof.
  split.
  - exists [], (str "number"), (str " | null").
    split; [reflexivity|]. split; discriminate.
  - split; [vm_compute; reflexivity | vm_compute; discriminate].
Qed.

(** ** The class locator *)

Lemma isClassDeclarationWithIdentifier_true (node : Node) (target : text) :
  isClassDeclarationWithIdentifier node target = true <->
  n_kind node = ClassDeclaration /\
  exists id, n_name node = Some id /\ name_kind id = Identifier /\
             escapedText id = target.
Proof.
  unfold isClassDeclarationWithIdentifier.
  destruct (kind_eqb (n_kind node) ClassDeclaration) eqn:Hk; simpl.
  - apply kind_eqb_eq in Hk. destruct (n_name node) as [id|].
    + destruct (kind_eqb (name_kind id) Identifier) eqn:Hi; simpl.
      * apply kind_eqb_eq in Hi. rewrite text_eqb_eq. split.
        -- intros He. split; [assumption|]. exists id. repeat split; assumption.
        -- intros (_ & id' & E & _ & He). injection E as <-. assumption.
      * split; [discriminate|]. intros (_ & id' & E & Hi' & _).
        injection E as <-. apply kind_eqb_eq in Hi'. congruence.
    + split; [discriminate|]. intros (_ & id' & E & _). discriminate.
  - split; [discriminate|]. intros (Hk' & _). apply kind_eqb_eq in Hk'.
    congruence.
Qed.

(** Once [result] is set, the remaining callbacks leave it. *)
Lemma forEachChild_found (target : text) (children : list Node) (node : Node) :
  fold_left
    (fun (result : option Node) (n : Node) =>
       match result with
       | Some _ => result
       | None =>
           if negb (isClassDeclarationWithIdentifier n target) then result
           else Some n
       end)
    children (Some node) = Some node.
Proof. induction children as [|n l IH]; simpl; [reflexivity | exact IH]. Qed.

(** The scan returns the first matching child, in source order. *)
Lemma findClassNodeByName_find (source : SourceFile) (target : text) :
  findClassNodeByName source target =
  find (fun n => isClassDeclarationWithIdentifier n target) (sf_children source).
Proof.
  unfold findClassNodeByName.
  induction (sf_children source) as [|n l IH]; simpl; [reflexivity|].
  destruct (isClassDeclarationWithIdentifier n target); simpl.
  - apply forEachChild_found.
  - exact IH.
Qed.

Lemma findClassNodeByName_None (source : SourceFile) (target : text) :
  findClassNodeByName source target = None <-> ~ declaresClass source target.
Proof.
  rewrite findClassNodeByName_find. split.
  - intros Hf (node & id & Hin & Hk & Hn & Hi & He).
    apply (find_none _ _ Hf) in Hin.
    assert (Ht : isClassDeclarationWithIdentifier node target = true).
    { apply isClassDeclarationWithIdentifier_true. split; [assumption|].
      exists id. repeat split; assumption. }
    congruence.
  - intros Hno.
    destruct (find _ (sf_children source)) as [node|] eqn:Hf; [|reflexivity].
    exfalso. apply Hno. apply find_some in Hf. destruct Hf as [Hin Ht].
    apply isClassDeclarationWithIdentifier_true in Ht.
    destruct Ht as (Hk & id & Hn & Hi & He).
    exists node, id. repeat split; assumption.
Qed.

Lemma findClassNodeByName_Some (source : SourceFile) (target : text) (node : Node) :
  findClassNodeByName source target = Some node ->
  In node (sf_children source) /\
  n_kind node = ClassDeclaration /\
  exists id, n_name node = Some id /\ name_kind id = Identifier /\
             escapedText id = target.
Proof.
  rewrite findClassNodeByName_find. intros Hf. apply find_some in Hf.
  destruct Hf as [Hin Ht]. split; [assumption|].
  apply isClassDeclarationWithIdentifier_true. assumption.
Qed.

Lemma findClassNodeByName_declares (source : SourceFile) (target : text) :
  (exists node, findClassNodeByName source target = Some node) <->
  declaresClass source target.
Proof.
  split.
  - intros (node & Hf). apply findClassNodeByName_Some in Hf.
    destruct Hf as (Hin & Hk & id & Hn & Hi & He).
    exists node, id. repeat split; assumption.
  - intros Hd. destruct (findClassNodeByName source target) as [node|] eqn:Hf.
    + exists node. reflexivity.
    + apply findClassNodeByName_None in Hf. contradiction.
Qed.

(** ** The method signature extractor *)

Lemma mapFilter_filter {A B : Type} (f : A -> option B) (p : A -> bool)
    (g : A -> B) (l : list A) :
  (forall x, f x = if p x then Some (g x) else None) ->
  mapFilter f l = List.map g (filter p l).
Proof.
  intros Hf. induction l as [|x l IH]; simpl; [reflexivity|].
  rewrite Hf. destruct (p x); simpl; rewrite IH; reflexivity.
Qed.

Lemma parseMethodArgumentDeclarationMetadata_eq (sourceFile : SourceFile)
    (parameter : ParameterDeclaration) :
  parseMethodArgumentDeclarationMetadata sourceFile parameter =
  if isParameter parameter then Some (argumentOf parameter) else None.
Proof.
  unfold parseMethodArgumentDeclarationMetadata, isParameter, argumentOf.
  destruct (kind_eqb (p_kind parameter) ParameterKind); reflexivity.
Qed.

Lemma parseMethodDeclarationMetadata_eq (sourceFile : SourceFile)
    (member : ClassElement) :
  parseMethodDeclarationMetadata sourceFile member =
  if isMethod member then Some (metadataOf member) else None.
Proof.
  unfold parseMethodDeclarationMetadata, isMethod.
  destruct (kind_eqb (m_kind member) MethodDeclaration); simpl; [|reflexivity].
  rewrite (mapFilter_filter _ isParameter argumentOf)
    by apply parseMethodArgumentDeclarationMetadata_eq.
  unfold metadataOf, declarationHead, parametersOf.
  rewrite map_map. reflexivity.
Qed.

Lemma parseMethodDeclarationMetadataList_eq (sourceFile : SourceFile)
    (sourceClass : Node) :
  parseMethodDeclarationMetadataList sourceFile sourceClass =
  List.map metadataOf (methodsOf sourceClass).
Proof.
  unfold parseMethodDeclarationMetadataList, methodsOf.
  apply mapFilter_filter. apply parseMethodDeclarationMetadata_eq.
Qed.

Lemma generateClassInterfaceMethods_eq (sourceFile : SourceFile)
    (sourceClass : Node) (indent : text) :
  generateClassInterfaceMethods
    (parseMethodDeclarationMetadataList sourceFile sourceClass) indent
  = join nl (List.map (fun method => indent ++ declarationHead method ++ str ";")
               (methodsOf sourceClass)).
Proof.
  unfold generateClassInterfaceMethods.
  rewrite parseMethodDeclarationMetadataList_eq, map_map. reflexivity.
Qed.

Lemma generateClassGuardMethodList_eq (sourceFile : SourceFile)
    (sourceClass : Node) (sourceRef indent : text) :
  generateClassGuardMethodList
    (parseMethodDeclarationMetadataList sourceFile sourceClass) sourceRef indent
  = join nl (List.map
               (fun method =>
                  indent ++ declarationHead method ++ str " {" ++ nl ++
                  indent ++ tab ++ str "return " ++
                  returnStatement (metadataOf method) sourceRef ++ str ";" ++ nl ++
                  indent ++ str "}")
               (methodsOf sourceClass)).
Proof.
  unfold generateClassGuardMethodList.
  rewrite parseMethodDeclarationMetadataList_eq, map_map. reflexivity.
Qed.


(** ** The guard emitter *)



(** C4.  The body of a guard method returns the delegating call
    [this.source.<name>(<args>)] when the method is Direct, the queue's
    [observe] applied to a closure without arguments around that call when
    it is Stream, and the queue's [add] applied to the same closure when
    it is Deferred. *)
Theorem C4_guard_body (method : MethodDeclarationMetadata) (indent : text) :
  (getQueueMethodForReturnType (md_returnType method) = Direct ->
   generateClassGuardMethod method sourceRefName indent
   = guardMethodText indent method (delegatingCall method)) /\
  (getQueueMethodForReturnType (md_returnType method) = Stream ->
   generateClassGuardMethod method sourceRefName indent
   = guardMethodText indent method
       (str "this.queue.observe(() => " ++ delegatingCall method ++ str ")")) /\
  (getQueueMethodForReturnType (md_returnType method) = Deferred ->
   generateClassGuardMethod method sourceRefName indent
   = guardMethodText indent method
       (str "this.queue.add(() => " ++ delegatingCall method ++ str ")")).
Proof.
  unfold generateClassGuardMethod, guardMethodText, delegatingCall, returnStatement.
  repeat split; intros ->; reflexivity.
Qed.

(** The generated text is the two imports, the interface and the class. *)
Lemma sourceFileText_eq (sourceFile : SourceFile) (className : text)
    (sourceClass : Node) :
  sourceFileText sourceFile className sourceClass =
  importsText ++ nl ++
  interfaceDeclarationText (className ++ str "Like")
    (generateClassInterfaceMethods
       (parseMethodDeclarationMetadataList sourceFile sourceClass) tab) ++
  nl ++
  classDeclarationText (className ++ str "Guard") (className ++ str "Like")
    (generateClassGuardMethodList
       (parseMethodDeclarationMetadataList sourceFile sourceClass) sourceRefName tab).
Proof.
  unfold sourceFileText, importsText, interfaceDeclarationText,
    classDeclarationText, queueFieldText.
  cbv zeta. rewrite <- !app_assoc. reflexivity.
Qed.

(** The generated text reads the class and not the unit around it. *)
Lemma sourceFileText_unit (sourceFile sourceFile' : SourceFile) (className : text)
    (sourceClass : Node) :
  sourceFileText sourceFile className sourceClass =
  sourceFileText sourceFile' className sourceClass.
Proof.
  unfold sourceFileText. cbv zeta.
  rewrite !parseMethodDeclarationMetadataList_eq. reflexivity.
Qed.

Lemma findClassNodeByName_children (source source' : SourceFile) (target : text) :
  sf_children source = sf_children source' ->
  findClassNodeByName source target = findClassNodeByName source' target.
Proof. unfold findClassNodeByName. intros ->. reflexivity. Qed.

(** ** The pipeline *)

Section PipelineProperties.

Variable createSourceFile : text -> text -> SourceFile.
Variable printFile : SourceFile -> text.


(** The outcome of [generateAst], by the result of the class locator. *)
Lemma generateAst_outcome (options : GenerateOptions) (c : Console) :
  outcome (generateAst createSourceFile options) c =
  match findClassNodeByName (inputRootNode createSourceFile options) (inputFileTargetClass options) with
  | Some sourceClass =>
      inr (createSourceFile (withDefault (outputFileName options))
             (sourceFileText (inputRootNode createSourceFile options) (inputFileTargetClass options)
                sourceClass))
  | None => inl (Error (notFoundMessage (withDefault (inputFileName options))))
  end.
Proof.
  unfold outcome, generateAst, bind, consoleLog, assert. simpl.
  destruct (findClassNodeByName _ _) as [node|] eqn:Hf; simpl.
  - apply findClassNodeByName_Some in Hf.
    destruct Hf as (_ & _ & id & Hn & _ & He).
    unfold generateOutputFromClassSource. rewrite Hn, He. reflexivity.
  - reflexivity.
Qed.

Lemma generate_outcome (options : GenerateOptions) (c : Console) :
  outcome (generate createSourceFile printFile options) c =
  match outcome (generateAst createSourceFile options) c with
  | inl e => inl e
  | inr unit => inr (printFile unit)
  end.
Proof.
  unfold outcome, generate, bind, ret.
  destruct (generateAst createSourceFile options c) as [[e|unit] c']; reflexivity.
Qed.


Lemma generate_success (options : GenerateOptions) (c : Console) (out : text) :
  outcome (generate createSourceFile printFile options) c = inr out ->
  exists sourceClass,
    findClassNodeByName (inputRootNode createSourceFile options)
      (inputFileTargetClass options) = Some sourceClass /\
    out = printFile
            (createSourceFile (withDefault (outputFileName options))
               (sourceFileText (inputRootNode createSourceFile options)
                  (inputFileTargetClass options) sourceClass)).
Proof.
  rewrite generate_outcome, generateAst_outcome.
  destruct (findClassNodeByName _ _) as [node|]; [|discriminate].
  intros H. injection H as <-. exists node. split; reflexivity.
Qed.





End PipelineProperties.


(** ** Sample runs *)

Example sample_run_Foo :
  outcome (generate sampleCreateSourceFile samplePrintFile (sampleOptions "Foo")) []
  = inr fooGuardText.
Proof. vm_compute. reflexivity. Qed.

Example sample_run_Base :
  outcome (generate sampleCreateSourceFile samplePrintFile (sampleOptions "Base")) []
  = inr baseGuardText.
Proof. vm_compute. reflexivity. Qed.

(** A return type with the blank that precedes it in the source is
    classified by the generic it holds. *)
Lemma C1_classifier_sample :
  getQueueMethodForReturnType (str " Observable<number>") = Stream.
Proof.
  apply (proj1 C1_classifier).
  exists (str " "), (str "number"), [].
  split; [reflexivity|].
  split; [repeat constructor|].
  split; [discriminate|].
  split; repeat constructor.
Defined.



(** [bar] returns a Promise: its guard goes through the queue's [add]. *)
Lemma C4_guard_body_sample :
  generateClassGuardMethod (metadataOf sampleBar) sourceRefName tab
  = tab ++ str "bar(x:  number):  Promise<string> {" ++ nl ++
    tab ++ tab ++ str "return this.queue.add(() => this.source.bar(x));" ++ nl ++
    tab ++ str "}".
Proof.
  rewrite (proj2 (proj2 (C4_guard_body (metadataOf sampleBar) tab)));
    vm_compute; reflexivity.
Defined.








(* ================================================================== *)
(** * Part III: further properties of the code                          *)
(* ================================================================== *)

(** ** The class locator returns the first match *)

Lemma find_first {A : Type} (p : A -> bool) (l : list A) (x : A) :
  find p l = Some x ->
  exists before after,
    l = before ++ x :: after /\
    p x = true /\
    forall y, In y before -> p y = false.
Proof.
  induction l as [|y l IH]; simpl; [discriminate|].
  destruct (p y) eqn:Hy.
  - intros H. injection H as <-. exists [], l.
    repeat split; [assumption | intros z []].
  - intros H. destruct (IH H) as (before & after & -> & Hx & Hb).
    exists (y :: before), after. repeat split; [assumption|].
    intros z [<- | Hz]; [assumption | apply Hb; assumption].
Qed.

(** X1.  The node the locator returns is the first child of the unit, in
    source order, that is a class declaration named by the identifier
    [target]: no child before it is one, and later ones are not looked
    at (a second class of the same name is never the result). *)
Theorem locator_first_match (source : SourceFile) (target : text) (node : Node) :
  findClassNodeByName source target = Some node ->
  exists before after,
    sf_children source = before ++ node :: after /\
    isClassDeclarationWithIdentifier node target = true /\
    forall earlier, In earlier before ->
                    isClassDeclarationWithIdentifier earlier target = false.
Proof.
  rewrite findClassNodeByName_find. intros H.
  exact (@find_first Node (fun n => isClassDeclarationWithIdentifier n target)
           (sf_children source) node H).
Qed.

Lemma locator_first_match_sample :
  exists before after,
    sampleChildren ++ [sampleFoo] = before ++ sampleFoo :: after /\
    isClassDeclarationWithIdentifier sampleFoo (str "Foo") = true /\
    forall earlier, In earlier before ->
                    isClassDeclarationWithIdentifier earlier (str "Foo") = false.
Proof.
  apply (@locator_first_match
           {| sf_fileName := []; sf_text := [];
              sf_children := sampleChildren ++ [sampleFoo] |} (str "Foo") sampleFoo).
  vm_compute. reflexivity.
Defined.

(** ** What an invocation logs and what it can throw *)




(** ** Edge behaviour of the classifier *)

Lemma splitsAsGeneric_cons_gt (keyword s : text) :
  splitsAsGeneric keyword s ->
  exists before c,
    s = before ++ 62%N :: c /\
    (exists a b, before = a ++ keyword ++ str "<" ++ b /\
                 Forall (fun x => isLineTerminator x = false) a /\
                 b <> [] /\
                 Forall (fun x => isLineTerminator x = false) b) /\
    Forall (fun x => isBracketOrBar x = false) c.
Proof.
  intros (a & b & c & -> & Ha & Hne & Hb & Hc).
  exists (a ++ keyword ++ str "<" ++ b), c. split.
  - rewrite <- !app_assoc. reflexivity.
  - split; [|assumption]. exists a, b. repeat split; assumption.
Qed.

(** Two classifications agree when the texts split alike for both
    keywords. *)
Lemma classifier_ext (s s' : text) :
  (splitsAsGeneric (str "Observable") s <-> splitsAsGeneric (str "Observable") s') ->
  (splitsAsGeneric (str "Promise") s <-> splitsAsGeneric (str "Promise") s') ->
  getQueueMethodForReturnType s = getQueueMethodForReturnType s'.
Proof.
  intros Ho Hp.
  destruct (classifier_total s) as [H | [H | H]]; rewrite H; symmetry.
  - apply classifier_Stream, Ho, classifier_Stream, H.
  - apply classifier_Deferred in H. destruct H as [Hn Hy].
    apply classifier_Deferred. split; [rewrite <- Ho | rewrite <- Hp]; assumption.
  - apply classifier_Direct in H. destruct H as [Hn Hn'].
    apply classifier_Direct. split; [rewrite <- Ho | rewrite <- Hp]; assumption.
Qed.

Lemma classifier_Direct_intro (s : text) :
  (forall keyword, ~ splitsAsGeneric keyword s) ->
  getQueueMethodForReturnType s = Direct.
Proof. intros H. apply classifier_Direct. split; apply H. Qed.



(** X5.  A return type without the character '>' is Direct: every
    primitive, [any], and every type that names no generic. *)
Theorem classifier_no_close_Direct (s : text) :
  ~ In 62%N s ->
  getQueueMethodForReturnType s = Direct.
Proof.
  intros Hs. apply classifier_Direct_intro. intros keyword H.
  apply splitsAsGeneric_cons_gt in H. destruct H as (before & c & -> & _).
  apply Hs. apply in_or_app. right. left. reflexivity.
Qed.

Lemma classifier_no_close_Direct_sample :
  getQueueMethodForReturnType (str " string | number") = Direct.
Proof.
  apply (@classifier_no_close_Direct (str " string | number")).
  vm_compute. intuition discriminate.
Defined.

Lemma keyword_line (keyword : text) :
  keyword = str "Observable" \/ keyword = str "Promise" ->
  Forall (fun x => isLineTerminator x = false) (keyword ++ str "<").
Proof. intros [-> | ->]; repeat constructor. Qed.

(** X6.  The [.] of the patterns does not cross a line terminator: a
    return type with a line terminator before its first '>' does not
    match either pattern, so a generic written over several lines is
    Direct. *)
Theorem classifier_line_break_Direct (before after : text) (x : char) :
  isLineTerminator x = true ->
  ~ In 62%N before ->
  getQueueMethodForReturnType (before ++ x :: after) = Direct.
Proof.
  intros Hx Hb.
  assert (Hno : forall keyword,
             keyword = str "Observable" \/ keyword = str "Promise" ->
             ~ splitsAsGeneric keyword (before ++ x :: after)).
  { intros keyword Hk H. apply splitsAsGeneric_cons_gt in H.
    destruct H as (p & c & E & (a & b & -> & Ha & _ & Hb') & _).
    assert (Hp : Forall (fun y => isLineTerminator y = false)
                   (a ++ keyword ++ str "<" ++ b)).
    { apply Forall_app. split; [assumption|]. rewrite app_assoc.
      apply Forall_app. split; [apply keyword_line; assumption | assumption]. }
    apply app_eq_app in E. destruct E as (l & [[E1 E2] | [E1 E2]]).
    - destruct l as [|y l]; simpl in E2.
      + injection E2 as Ex _. subst x. discriminate.
      + injection E2 as Ey _. subst y. apply Hb. rewrite E1.
        apply in_or_app. right. left. reflexivity.
    - destruct l as [|y l]; simpl in E2.
      + injection E2 as Ex _. subst x. discriminate.
      + injection E2 as Ey _. subst y. rewrite E1 in Hp.
        apply Forall_app in Hp. destruct Hp as [_ Hp]. inversion Hp. congruence. }
  apply classifier_Direct. split; apply Hno; [left | right]; reflexivity.
Qed.

Lemma classifier_line_break_Direct_sample :
  getQueueMethodForReturnType (str " Observable<{" ++ 10%N :: str " id: number }>") = Direct.
Proof.
  apply (@classifier_line_break_Direct (str " Observable<{") (str " id: number }>") 10%N).
  - reflexivity.
  - vm_compute. intuition discriminate.
Defined.

Lemma splitsAsGeneric_cons (keyword rest s : text) (first x : char) :
  keyword = first :: rest ->
  x <> first ->
  isLineTerminator x = false ->
  splitsAsGeneric keyword (x :: s) <-> splitsAsGeneric keyword s.
Proof.
  intros -> Hx Hl. split.
  - intros (a & b & c & E & Ha & Hne & Hb & Hc).
    destruct a as [|y a]; simpl in E.
    + injection E as E _. contradiction.
    + injection E as _ ->. inversion Ha; subst.
      exists a, b, c. repeat split; assumption.
  - intros (a & b & c & -> & Ha & Hne & Hb & Hc).
    exists (x :: a), b, c. repeat split; try assumption.
    constructor; assumption.
Qed.

(** X7.  Text in front of a return type that holds no line terminator
    and none of the letters 'O' and 'P' does not change its
    classification; so the blanks that the full text of a type
    annotation starts with do not. *)
Theorem classifier_leading_text (front returnType : text) :
  Forall (fun x => isLineTerminator x = false /\ x <> 79%N /\ x <> 80%N) front ->
  getQueueMethodForReturnType (front ++ returnType)
  = getQueueMethodForReturnType returnType.
Proof.
  induction 1 as [|x front (Hl & Ho & Hp) _ IH]; simpl; [reflexivity|].
  rewrite <- IH. apply classifier_ext.
  - apply (@splitsAsGeneric_cons (str "Observable") (str "bservable") _ 79%N x);
      [reflexivity | assumption | assumption].
  - apply (@splitsAsGeneric_cons (str "Promise") (str "romise") _ 80%N x);
      [reflexivity | assumption | assumption].
Qed.

Lemma classifier_leading_text_sample :
  getQueueMethodForReturnType (str "  " ++ str "Promise<void>")
  = getQueueMethodForReturnType (str "Promise<void>").
Proof.
  apply (@classifier_leading_text (str "  ") (str "Promise<void>")).
  repeat first [discriminate | constructor].
Defined.

(** X8.  A Stream return type stays Stream inside a larger type text:
    with any text without line terminators in front of it and any text
    without '[', '|' and ']' behind it. *)
Theorem classifier_Stream_wrapped (front returnType back : text) :
  getQueueMethodForReturnType returnType = Stream ->
  Forall (fun x => isLineTerminator x = false) front ->
  Forall (fun x => isBracketOrBar x = false) back ->
  getQueueMethodForReturnType (front ++ returnType ++ back) = Stream.
Proof.
  intros H Hf Hb. apply classifier_Stream in H.
  destruct H as (a & b & c & -> & Ha & Hne & Hb' & Hc).
  apply classifier_Stream. exists (front ++ a), b, (c ++ back).
  split; [rewrite <- !app_assoc; reflexivity|].
  repeat split; try assumption; apply Forall_app; split; assumption.
Qed.

Lemma classifier_Stream_wrapped_sample :
  getQueueMethodForReturnType
    (str " Partial<" ++ str "Observable<string[]>" ++ str "> /* hot */") = Stream.
Proof.
  apply (@classifier_Stream_wrapped (str " Partial<") (str "Observable<string[]>")
           (str "> /* hot */")).
  - vm_compute. reflexivity.
  - repeat constructor.
  - repeat constructor.
Defined.

(** ** Members that are not methods, and lists of methods *)

Lemma filter_none {A : Type} (p : A -> bool) (l : list A) :
  (forall x, In x l -> p x = false) -> filter p l = [].
Proof.
  induction l as [|x l IH]; simpl; intros H; [reflexivity|].
  rewrite (H x) by (left; reflexivity).
  apply IH. intros y Hy. apply H. right. assumption.
Qed.

Lemma isMethod_false (member : ClassElement) :
  m_kind member <> MethodDeclaration -> isMethod member = false.
Proof.
  intros H. unfold isMethod.
  destruct (kind_eqb (m_kind member) MethodDeclaration) eqn:E; [|reflexivity].
  apply kind_eqb_eq in E. contradiction.
Qed.

(** X9.  A member that is not a method declaration (a property, a
    constructor, an accessor) leaves no trace: the text generated for
    the class is the one generated without that member. *)
Theorem nonmethod_member_ignored (sourceFile : SourceFile) (className : text)
    (kind : SyntaxKind) (name : option NameNode)
    (before after : list ClassElement) (member : ClassElement) :
  m_kind member <> MethodDeclaration ->
  sourceFileText sourceFile className
    {| n_kind := kind; n_name := name; n_members := before ++ member :: after |}
  = sourceFileText sourceFile className
      {| n_kind := kind; n_name := name; n_members := before ++ after |}.
Proof.
  intros H. unfold sourceFileText. cbv zeta.
  rewrite !parseMethodDeclarationMetadataList_eq. unfold methodsOf. simpl.
  rewrite !filter_app. simpl. rewrite (isMethod_false _ H). reflexivity.
Qed.

Lemma nonmethod_member_ignored_sample :
  sourceFileText (sampleCreateSourceFile [] sampleText) (str "Foo") sampleFoo
  = sourceFileText (sampleCreateSourceFile [] sampleText) (str "Foo")
      {| n_kind := ClassDeclaration; n_name := Some (identifier "Foo");
         n_members := [] ++ [sampleBar; sampleBaz; sampleQux] |}.
Proof.
  apply (@nonmethod_member_ignored (sampleCreateSourceFile [] sampleText) (str "Foo")
           ClassDeclaration (Some (identifier "Foo")) []
           [sampleBar; sampleBaz; sampleQux] sampleLabel).
  discriminate.
Defined.

(** X10.  For a class without method declarations the generated text
    is the imports, an interface whose body is one empty line, and a
    guard class with the queue field, the constructor and no method. *)
Theorem class_without_methods (sourceFile : SourceFile) (className : text)
    (sourceClass : Node) :
  (forall member, In member (n_members sourceClass) ->
                  m_kind member <> MethodDeclaration) ->
  sourceFileText sourceFile className sourceClass
  = importsText ++ nl ++
    interfaceDeclarationText (className ++ str "Like") [] ++ nl ++
    classDeclarationText (className ++ str "Guard") (className ++ str "Like") [].
Proof.
  intros H. rewrite sourceFileText_eq, parseMethodDeclarationMetadataList_eq.
  unfold methodsOf. rewrite filter_none; [reflexivity|].
  intros member Hin. apply isMethod_false, H, Hin.
Qed.

Lemma class_without_methods_sample :
  sourceFileText (sampleCreateSourceFile [] sampleText) (str "Base") sampleBase
  = importsText ++ nl ++
    interfaceDeclarationText (str "Base" ++ str "Like") [] ++ nl ++
    classDeclarationText (str "Base" ++ str "Guard") (str "Base" ++ str "Like") [].
Proof.
  apply (@class_without_methods (sampleCreateSourceFile [] sampleText) (str "Base")
           sampleBase).
  intros member [].
Defined.

Lemma join_app (sep : text) (l1 l2 : list text) :
  l1 <> [] -> l2 <> [] ->
  join sep (l1 ++ l2) = join sep l1 ++ sep ++ join sep l2.
Proof.
  intros H1 H2. induction l1 as [|x l1 IH]; [contradiction|].
  destruct l1 as [|y l1].
  - simpl. destruct l2; [contradiction | reflexivity].
  - change (join sep ((x :: y :: l1) ++ l2))
      with (x ++ sep ++ join sep ((y :: l1) ++ l2)).
    rewrite IH by discriminate.
    change (join sep (x :: y :: l1)) with (x ++ sep ++ join sep (y :: l1)).
    rewrite <- !app_assoc. reflexivity.
Qed.

(** X11.  Both generated lists are built method by method: for two
    non-empty runs of methods, the interface members and the guard
    methods of the runs put together are those of the first run, a line
    break, and those of the second; no separator follows the last entry
    or precedes the first. *)
Theorem generated_lists_compose (first second : list MethodDeclarationMetadata)
    (sourceRef indent : text) :
  first <> [] -> second <> [] ->
  generateClassInterfaceMethods (first ++ second) indent
  = generateClassInterfaceMethods first indent ++ nl ++
    generateClassInterfaceMethods second indent /\
  generateClassGuardMethodList (first ++ second) sourceRef indent
  = generateClassGuardMethodList first sourceRef indent ++ nl ++
    generateClassGuardMethodList second sourceRef indent.
Proof.
  intros H1 H2.
  unfold generateClassInterfaceMethods, generateClassGuardMethodList.
  rewrite !map_app.
  split; apply join_app; intros E; apply map_eq_nil in E; contradiction.
Qed.

Lemma generated_lists_compose_sample :
  generateClassInterfaceMethods ([metadataOf sampleBar] ++ [metadataOf sampleBaz]) tab
  = generateClassInterfaceMethods [metadataOf sampleBar] tab ++ nl ++
    generateClassInterfaceMethods [metadataOf sampleBaz] tab /\
  generateClassGuardMethodList ([metadataOf sampleBar] ++ [metadataOf sampleBaz])
    sourceRefName tab
  = generateClassGuardMethodList [metadataOf sampleBar] sourceRefName tab ++ nl ++
    generateClassGuardMethodList [metadataOf sampleBaz] sourceRefName tab.
Proof.
  apply (@generated_lists_compose [metadataOf sampleBar] [metadataOf sampleBaz]
           sourceRefName tab); discriminate.
Defined.
